(** * The SPHINCS+ binding layer of Dytallix

    Source: [dytallix-lean-launch/vendor/pqclean/wrappers/sphincs_wrapper.c].

    The file holds six one-line C functions.  Three of them call a function
    of the PQClean implementation of SPHINCS+-SHA2-128s-simple and return
    its [int] result; three of them return a macro of PQClean's [api.h].

    Neither the three PQClean functions nor [api.h] are part of the wrapper
    file.  The embedding therefore keeps them apart from the wrapper:

    - a call of a PQClean function is an event ([prim_call]) of a small
      program type ([prog]); what the function does is given later by a
      [handler], over which every theorem below is universally quantified;
    - the three macros are parameters of the section.

    Pointers are block/offset pairs into a block memory, so that the length
    of the buffer behind a pointer is something a statement can speak about,
    although the C functions themselves only ever see the pointer. *)

From Stdlib Require Import ZArith List Lia.
From stdpp Require Import base gmap.
Import ListNotations.

Local Open Scope Z_scope.

(** ** C values *)

Module CTypes.

(** [unsigned char]. *)
Definition uchar : Type := Byte.byte.

(** [int] and [size_t] values are integers; [int] is 32 bits wide. *)
Definition int_min : Z := - 2 ^ 31.
Definition int_max : Z := 2 ^ 31 - 1.

Definition in_int_range (z : Z) : Prop := int_min <= z <= int_max.

(** Conversion of an integer constant to [int], as done by [return] in a
    function whose return type is [int]: the value is kept when it fits,
    and wraps around (two's complement) when it does not. *)
Definition to_int (z : Z) : Z := (z + 2 ^ 31) mod 2 ^ 32 - 2 ^ 31.

(** A pointer: the block it points into and the offset inside the block. *)
Record ptr : Type := Ptr { blk : N; off : Z }.

End CTypes.

Export CTypes.

(** ** Memory and process state *)

Section Wrapper.

(** Whatever state the PQClean functions keep or consume besides the
    caller's buffers (the randomness source, for one). *)
Variable env : Type.

(** The macros of [api.h] returned by the three size functions. *)
Variable PQCLEAN_SPHINCSSHA2128SSIMPLE_CLEAN_CRYPTO_PUBLICKEYBYTES : Z.
Variable PQCLEAN_SPHINCSSHA2128SSIMPLE_CLEAN_CRYPTO_SECRETKEYBYTES : Z.
Variable PQCLEAN_SPHINCSSHA2128SSIMPLE_CLEAN_CRYPTO_BYTES : Z.

(** The buffers of the process, one block each. *)
Record world : Type := World {
  mem : gmap N (list uchar);
  hidden : env
}.

(** Number of bytes available behind a pointer: from its offset to the end
    of its block.  [None] for a pointer into no block. *)
Definition buf_len (w : world) (p : ptr) : option Z :=
  match mem w !! blk p with
  | Some bytes => Some (Z.of_nat (length bytes) - off p)
  | None => None
  end.

(** ** Calls of the PQClean functions *)

(** One constructor per PQClean function the wrapper calls, with the
    arguments of its prototype. *)
Inductive prim_call : Type :=
| PQCLEAN_SPHINCSSHA2128SSIMPLE_CLEAN_crypto_sign_keypair
    (pk sk : ptr)
| PQCLEAN_SPHINCSSHA2128SSIMPLE_CLEAN_crypto_sign_signature
    (sig siglen m : ptr) (mlen : Z) (sk : ptr)
| PQCLEAN_SPHINCSSHA2128SSIMPLE_CLEAN_crypto_sign_verify
    (sig : ptr) (siglen : Z) (m : ptr) (mlen : Z) (pk : ptr).

(** A program: it returns, or calls a PQClean function and goes on with the
    [int] the function returned. *)
Inductive prog (R : Type) : Type :=
| Ret (r : R)
| Call (c : prim_call) (k : Z -> prog R).

Arguments Ret {R} r.
Arguments Call {R} c k.

(** What the PQClean functions do: from the call and the state before it,
    the returned [int] and the state after it. *)
Definition handler : Type := prim_call -> world -> Z * world.

(** Outcome of a run: the value returned, the final state and the calls
    made, in order. *)
Record outcome (R : Type) : Type := Outcome {
  result : R;
  final : world;
  calls : list prim_call
}.

Arguments Outcome {R} result final calls.
Arguments result {R} o.
Arguments final {R} o.
Arguments calls {R} o.

Fixpoint run {R : Type} (h : handler) (p : prog R) (w : world) : outcome R :=
  match p with
  | Ret r => Outcome r w []
  | Call c k =>
      let '(r, w1) := h c w in
      let o := run h (k r) w1 in
      Outcome (result o) (final o) (c :: calls o)
  end.

(** ** The six functions of [sphincs_wrapper.c] *)

Definition pqc_keypair (pk sk : ptr) : prog Z :=
  Call (PQCLEAN_SPHINCSSHA2128SSIMPLE_CLEAN_crypto_sign_keypair pk sk) Ret.

Definition pqc_sign (sig siglen m : ptr) (mlen : Z) (sk : ptr) : prog Z :=
  Call (PQCLEAN_SPHINCSSHA2128SSIMPLE_CLEAN_crypto_sign_signature
          sig siglen m mlen sk) Ret.

Definition pqc_verify (sig : ptr) (siglen : Z) (m : ptr) (mlen : Z) (pk : ptr)
  : prog Z :=
  Call (PQCLEAN_SPHINCSSHA2128SSIMPLE_CLEAN_crypto_sign_verify
          sig siglen m mlen pk) Ret.

Definition pqc_pk_bytes : prog Z :=
  Ret (to_int PQCLEAN_SPHINCSSHA2128SSIMPLE_CLEAN_CRYPTO_PUBLICKEYBYTES).

Definition pqc_sk_bytes : prog Z :=
  Ret (to_int PQCLEAN_SPHINCSSHA2128SSIMPLE_CLEAN_CRYPTO_SECRETKEYBYTES).

Definition pqc_sig_bytes : prog Z :=
  Ret (to_int PQCLEAN_SPHINCSSHA2128SSIMPLE_CLEAN_CRYPTO_BYTES).

(** ** A process using the binding *)

(** The calls a client of the binding can make. *)
Inductive api_call : Type :=
| ApiKeypair (pk sk : ptr)
| ApiSign (sig siglen m : ptr) (mlen : Z) (sk : ptr)
| ApiVerify (sig : ptr) (siglen : Z) (m : ptr) (mlen : Z) (pk : ptr)
| ApiPkBytes
| ApiSkBytes
| ApiSigBytes.

Definition api_prog (a : api_call) : prog Z :=
  match a with
  | ApiKeypair pk sk => pqc_keypair pk sk
  | ApiSign sig siglen m mlen sk => pqc_sign sig siglen m mlen sk
  | ApiVerify sig siglen m mlen pk => pqc_verify sig siglen m mlen pk
  | ApiPkBytes => pqc_pk_bytes
  | ApiSkBytes => pqc_sk_bytes
  | ApiSigBytes => pqc_sig_bytes
  end.

Definition is_size_query (a : api_call) : bool :=
  match a with
  | ApiPkBytes | ApiSkBytes | ApiSigBytes => true
  | _ => false
  end.

(** A process makes its calls one after the other, each on the state the
    previous one left; [run_process] collects the values returned. *)
Fixpoint run_process (h : handler) (cs : list api_call) (w : world) : list Z :=
  match cs with
  | [] => []
  | a :: cs' =>
      let o := run h (api_prog a) w in
      result o :: run_process h cs' (final o)
  end.

(** ** Statement of the key-length check of [sign] *)

(** [pqc_sign], called on a secret key buffer of some length other than
    [SKBYTES], returns a status without having called a PQClean function
    and without having changed a buffer. *)
Definition rejects_wrong_key_length (SKBYTES : Z) (h : handler) (w : world)
    (sig siglen m : ptr) (mlen : Z) (sk : ptr) : Prop :=
  buf_len w sk <> Some SKBYTES ->
  exists code : Z, run h (pqc_sign sig siglen m mlen sk) w = Outcome code w [].

End Wrapper.

Arguments Ret {R} r.
Arguments Call {R} c k.
Arguments World {env} mem hidden.
Arguments mem {env} w.
Arguments hidden {env} w.
Arguments buf_len {env} w p.
Arguments Outcome {env R} result final calls.
Arguments result {env R} o.
Arguments final {env R} o.
Arguments calls {env R} o.
Arguments run {env R} h p w.
Arguments run_process {env} PKBYTES SKBYTES SIGBYTES h cs w : rename.
Arguments rejects_wrong_key_length {env} SKBYTES h w sig siglen m mlen sk.

(** ** Concrete data to run the binding on *)

Module Sample.

(** Sizes of SPHINCS+-SHA2-128s-simple. *)
Definition PKBYTES : Z := 32.
Definition SKBYTES : Z := 64.
Definition SIGBYTES : Z := 7856.

(** A stand-in for the three PQClean functions: key generation fills both
    key blocks, signing copies the message block into the signature block,
    verifying compares the two lengths.  It is no signature scheme; it only
    gives the calls of the wrapper something to run against. *)
Definition primitives : handler unit := fun c w =>
  match c with
  | PQCLEAN_SPHINCSSHA2128SSIMPLE_CLEAN_crypto_sign_keypair pk sk =>
      (0, World (<[blk pk := repeat Byte.x01 32]>
                   (<[blk sk := repeat Byte.x02 64]> (mem w))) tt)
  | PQCLEAN_SPHINCSSHA2128SSIMPLE_CLEAN_crypto_sign_signature sig _ m _ _ =>
      (0, World (<[blk sig := default [] (mem w !! blk m)]> (mem w)) tt)
  | PQCLEAN_SPHINCSSHA2128SSIMPLE_CLEAN_crypto_sign_verify _ siglen _ mlen _ =>
      (if siglen =? mlen then 0 else -1, w)
  end.

Definition sig_buf : ptr := Ptr 0 0.
Definition siglen_buf : ptr := Ptr 1 0.
Definition msg_buf : ptr := Ptr 2 0.
Definition short_sk_buf : ptr := Ptr 3 0.
Definition pk_buf : ptr := Ptr 4 0.
Definition sk_buf : ptr := Ptr 5 0.

(** A state whose block 3 is a ten-byte buffer, too short for a secret key. *)
Definition w0 : world unit :=
  World (<[0%N := repeat Byte.x00 16]>
         (<[1%N := repeat Byte.x00 8]>
          (<[2%N := [Byte.x61; Byte.x62; Byte.x63]]>
           (<[3%N := repeat Byte.x00 10]>
            (<[4%N := repeat Byte.x00 32]>
             (<[5%N := repeat Byte.x00 64]> ∅)))))) tt.

Definition session : list api_call :=
  [ ApiSigBytes; ApiKeypair pk_buf sk_buf; ApiSigBytes;
    ApiSign sig_buf siglen_buf msg_buf 3 sk_buf;
    ApiVerify sig_buf 3 msg_buf 3 pk_buf; ApiSigBytes ].

End Sample.

(** ** Sessions: sequences of binding calls, with state and call log *)

Section Sessions.

Variable env : Type.
Variables PKBYTES SKBYTES SIGBYTES : Z.

(** The PQClean function named in the body of a function of the binding,
    on the arguments the body gives it; none for the three size functions,
    whose bodies name a macro. *)
Definition prim_of (a : api_call) : option prim_call :=
  match a with
  | ApiKeypair pk sk =>
      Some (PQCLEAN_SPHINCSSHA2128SSIMPLE_CLEAN_crypto_sign_keypair pk sk)
  | ApiSign sig siglen m mlen sk =>
      Some (PQCLEAN_SPHINCSSHA2128SSIMPLE_CLEAN_crypto_sign_signature
              sig siglen m mlen sk)
  | ApiVerify sig siglen m mlen pk =>
      Some (PQCLEAN_SPHINCSSHA2128SSIMPLE_CLEAN_crypto_sign_verify
              sig siglen m mlen pk)
  | ApiPkBytes | ApiSkBytes | ApiSigBytes => None
  end.

(** A session is [run_process] with nothing thrown away: the values
    returned, the state after the last call and every PQClean call made. *)
Fixpoint run_session (h : handler env) (cs : list api_call) (w : world env)
  : outcome env (list Z) :=
  match cs with
  | [] => Outcome [] w []
  | a :: cs' =>
      let o := run h (api_prog PKBYTES SKBYTES SIGBYTES a) w in
      let os := run_session h cs' (final o) in
      Outcome (result o :: result os) (final os) (calls o ++ calls os)
  end.

(** The PQClean functions called directly, one after the other, without
    the binding in between. *)
Fixpoint run_prims (h : handler env) (ps : list prim_call) (w : world env)
  : list Z * world env :=
  match ps with
  | [] => ([], w)
  | c :: ps' =>
      let '(r, w1) := h c w in
      let '(rs, w2) := run_prims h ps' w1 in
      (r :: rs, w2)
  end.

(** Of the values [rs] returned to the calls [cs], those that were not
    returned by a size query. *)
Fixpoint status_results (cs : list api_call) (rs : list Z) : list Z :=
  match cs, rs with
  | a :: cs', r :: rs' =>
      if is_size_query a then status_results cs' rs'
      else r :: status_results cs' rs'
  | _, _ => []
  end.

(** A session with its size queries left out. *)
Definition without_size_queries (cs : list api_call) : list api_call :=
  List.filter (fun a => negb (is_size_query a)) cs.

End Sessions.

Arguments run_session {env} PKBYTES SKBYTES SIGBYTES h cs w.
Arguments run_prims {env} h ps w.

(** ** Concrete sessions *)

Module SessionSample.

(** As [Sample.primitives], except that key generation fails and writes
    nothing. *)
Definition no_keygen : handler unit := fun c w =>
  match c with
  | PQCLEAN_SPHINCSSHA2128SSIMPLE_CLEAN_crypto_sign_keypair _ _ => (-1, w)
  | _ => Sample.primitives c w
  end.

(** A session of a process that holds its keys already. *)
Definition signing_session : list api_call :=
  [ ApiSkBytes;
    ApiSign Sample.sig_buf Sample.siglen_buf Sample.msg_buf 3 Sample.sk_buf;
    ApiSigBytes;
    ApiVerify Sample.sig_buf 3 Sample.msg_buf 3 Sample.pk_buf ].

(** The message buffer of [Sample.w0] holds what it held at the start. *)
Definition message_intact (w : world unit) : Prop :=
  mem w !! 2%N = Some [Byte.x61; Byte.x62; Byte.x63].

End SessionSample.

(** ** Properties of the binding *)

Section Properties.

Variables PKBYTES SKBYTES SIGBYTES : Z.

Lemma to_int_in_range (z : Z) : in_int_range z -> to_int z = z.
Proof.
  unfold in_int_range, int_min, int_max, to_int. intros Hz.
  rewrite Z.mod_small by lia. lia.
Qed.

(** A program that makes one call and returns its result does what the
    called function does, and nothing else. *)
Lemma run_call_ret {env : Type} (h : handler env) (c : prim_call)
    (w : world env) :
  run h (Call c Ret) w = Outcome (h c w).1 (h c w).2 [c].
Proof. simpl. destruct (h c w) as [r w1]. reflexivity. Qed.

Lemma run_ret {env : Type} (h : handler env) (z : Z) (w : world env) :
  run h (Ret z) w = Outcome z w [].
Proof. reflexivity. Qed.

(** The value a process gets from its [i]-th call is the value of running
    that call on the state the first [i] calls have left. *)
Lemma run_process_lookup {env : Type} (h : handler env)
    (cs : list api_call) :
  forall (w : world env) (i : nat) (a : api_call),
    cs !! i = Some a ->
    exists wi, run_process PKBYTES SKBYTES SIGBYTES h cs w !! i
               = Some (result (run h (api_prog PKBYTES SKBYTES SIGBYTES a) wi)).
Proof.
  induction cs as [| a0 cs IH]; intros w i a Hi.
  - destruct i; discriminate.
  - destruct i as [| i]; simpl in *.
    + inversion Hi; subst. exists w. reflexivity.
    + apply (IH _ _ _ Hi).
Qed.

(** C10: each of the six functions of the binding does exactly what the
    PQClean function or constant it wraps does.  For every behaviour [h] of
    the PQClean functions, every state and every argument list,
    [pqc_keypair], [pqc_sign] and [pqc_verify] make one call, that of their
    PQClean function on the very same arguments, return the [int] it
    returned and leave the state it left; [pqc_pk_bytes], [pqc_sk_bytes] and
    [pqc_sig_bytes] return the value of their macro (an [int] constant),
    make no call and leave the state as it was. *)
Theorem binding_equals_primitives {env : Type} (h : handler env)
    (w : world env) :
  in_int_range PKBYTES -> in_int_range SKBYTES -> in_int_range SIGBYTES ->
  (forall pk sk,
     let c := PQCLEAN_SPHINCSSHA2128SSIMPLE_CLEAN_crypto_sign_keypair pk sk in
     run h (pqc_keypair pk sk) w = Outcome (h c w).1 (h c w).2 [c])
  /\ (forall sig siglen m mlen sk,
     let c := PQCLEAN_SPHINCSSHA2128SSIMPLE_CLEAN_crypto_sign_signature
                sig siglen m mlen sk in
     run h (pqc_sign sig siglen m mlen sk) w = Outcome (h c w).1 (h c w).2 [c])
  /\ (forall sig siglen m mlen pk,
     let c := PQCLEAN_SPHINCSSHA2128SSIMPLE_CLEAN_crypto_sign_verify
                sig siglen m mlen pk in
     run h (pqc_verify sig siglen m mlen pk) w
     = Outcome (h c w).1 (h c w).2 [c])
  /\ run h (pqc_pk_bytes PKBYTES) w = Outcome PKBYTES w []
  /\ run h (pqc_sk_bytes SKBYTES) w = Outcome SKBYTES w []
  /\ run h (pqc_sig_bytes SIGBYTES) w = Outcome SIGBYTES w [].
Proof.
  intros Hpk Hsk Hsig.
  repeat split; intros; unfold pqc_keypair, pqc_sign, pqc_verify,
    pqc_pk_bytes, pqc_sk_bytes, pqc_sig_bytes;
    rewrite ?run_call_ret, ?run_ret, ?to_int_in_range by assumption;
    reflexivity.
Qed.

(** C6: the three size functions are pure and constant.  A size query has
    one value [v] such that, whatever the PQClean functions do, whatever
    calls of [pqc_keypair], [pqc_sign] and [pqc_verify] a process
    interleaves and whatever state it starts in, the query returns [v]
    wherever it stands in the process; and run in any state it returns [v],
    calls nothing and leaves the state unchanged. *)
Theorem size_queries_constant (a : api_call) :
  is_size_query a = true ->
  exists v : Z,
    (forall (env : Type) (h : handler env) (w : world env),
       run h (api_prog PKBYTES SKBYTES SIGBYTES a) w = Outcome v w [])
    /\ (forall (env : Type) (h : handler env) (cs : list api_call)
           (w : world env) (i : nat),
         cs !! i = Some a ->
         run_process PKBYTES SKBYTES SIGBYTES h cs w !! i = Some v).
Proof.
  intros Hq.
  exists (match a with
          | ApiPkBytes => to_int PKBYTES
          | ApiSkBytes => to_int SKBYTES
          | _ => to_int SIGBYTES
          end).
  assert (Hrun : forall (env : Type) (h : handler env) (w : world env),
    run h (api_prog PKBYTES SKBYTES SIGBYTES a) w
    = Outcome (match a with
               | ApiPkBytes => to_int PKBYTES
               | ApiSkBytes => to_int SKBYTES
               | _ => to_int SIGBYTES
               end) w []).
  { destruct a; try discriminate; reflexivity. }
  split; [exact Hrun |].
  intros env h cs w i Hi.
  destruct (run_process_lookup h cs w i a Hi) as [wi ->].
  rewrite Hrun. reflexivity.
Qed.

(** C4 (as amended): [pqc_sign] has no parameter for the length of the
    secret key and checks nothing.  Every call, whatever the length of the
    buffer behind [sk], makes exactly one call of the PQClean signing
    function on the arguments as they were given, and returns that
    function's status and leaves the state that function left. *)
Theorem pqc_sign_forwards_any_key {env : Type} (h : handler env)
    (w : world env) (sig siglen m : ptr) (mlen : Z) (sk : ptr) :
  let c := PQCLEAN_SPHINCSSHA2128SSIMPLE_CLEAN_crypto_sign_signature
             sig siglen m mlen sk in
  calls (run h (pqc_sign sig siglen m mlen sk) w) = [c]
  /\ result (run h (pqc_sign sig siglen m mlen sk) w) = (h c w).1
  /\ final (run h (pqc_sign sig siglen m mlen sk) w) = (h c w).2.
Proof.
  intros c. unfold pqc_sign. fold c. rewrite run_call_ret. auto.
Qed.

End Properties.

(** ** The binding on concrete data *)

(** The binding on the sample state, with the sizes of the 128s parameter
    set: a signing call and a size query. *)
Lemma binding_equals_primitives_witness :
  in_int_range Sample.PKBYTES /\ in_int_range Sample.SKBYTES
  /\ in_int_range Sample.SIGBYTES
  /\ run Sample.primitives
        (pqc_sign Sample.sig_buf Sample.siglen_buf Sample.msg_buf 3
           Sample.sk_buf) Sample.w0
      = (let c := PQCLEAN_SPHINCSSHA2128SSIMPLE_CLEAN_crypto_sign_signature
                    Sample.sig_buf Sample.siglen_buf Sample.msg_buf 3
                    Sample.sk_buf in
         Outcome (Sample.primitives c Sample.w0).1
                 (Sample.primitives c Sample.w0).2 [c])
  /\ run Sample.primitives (pqc_sig_bytes Sample.SIGBYTES) Sample.w0
      = Outcome 7856 Sample.w0 [].
Proof.
  assert (Hpk : in_int_range Sample.PKBYTES) by (vm_compute; split; discriminate).
  assert (Hsk : in_int_range Sample.SKBYTES) by (vm_compute; split; discriminate).
  assert (Hsig : in_int_range Sample.SIGBYTES) by (vm_compute; split; discriminate).
  destruct (binding_equals_primitives Sample.PKBYTES Sample.SKBYTES
              Sample.SIGBYTES Sample.primitives Sample.w0 Hpk Hsk Hsig)
    as (_ & Hsign & _ & _ & _ & Hbytes).
  exact (conj Hpk (conj Hsk (conj Hsig (conj (Hsign _ _ _ _ _) Hbytes)))).
Defined.

(** In the sample session the first and the last call are both
    [pqc_sig_bytes], with key generation, signing and verification in
    between; they return the same value. *)
Lemma size_queries_constant_witness :
  is_size_query ApiSigBytes = true
  /\ Sample.session !! 5%nat = Some ApiSigBytes
  /\ exists v : Z,
       run_process Sample.PKBYTES Sample.SKBYTES Sample.SIGBYTES
         Sample.primitives Sample.session Sample.w0 !! 0%nat = Some v
       /\ run_process Sample.PKBYTES Sample.SKBYTES Sample.SIGBYTES
            Sample.primitives Sample.session Sample.w0 !! 5%nat = Some v.
Proof.
  split; [reflexivity |]. split; [reflexivity |].
  destruct (size_queries_constant Sample.PKBYTES Sample.SKBYTES
              Sample.SIGBYTES ApiSigBytes eq_refl) as (v & _ & Hv).
  exists v. split; apply (Hv unit); reflexivity.
Defined.

(** C4 (as stated) fails: in state [Sample.w0] the secret key buffer has ten
    bytes, not 64, and yet no behaviour of the PQClean functions makes
    [pqc_sign] return before it has called one of them. *)
Lemma pqc_sign_wrong_key_length_cex :
  buf_len Sample.w0 Sample.short_sk_buf = Some 10
  /\ ~ exists h : handler unit,
        rejects_wrong_key_length Sample.SKBYTES h Sample.w0
          Sample.sig_buf Sample.siglen_buf Sample.msg_buf 3
          Sample.short_sk_buf.
Proof.
  split; [reflexivity |].
  intros [h Hrej].
  destruct Hrej as [code Hcode].
  - vm_compute. discriminate.
  - unfold pqc_sign in Hcode. rewrite run_call_ret in Hcode.
    discriminate Hcode.
Qed.

(** ** Sessions of binding calls *)

Section SessionProperties.

Variables PKBYTES SKBYTES SIGBYTES : Z.

(** One binding call: a size function returns and that is all; each of the
    other three is the one call its body names. *)
Lemma calls_api_prog {env : Type} (h : handler env) (a : api_call)
    (w : world env) :
  calls (run h (api_prog PKBYTES SKBYTES SIGBYTES a) w)
  = match prim_of a with Some c => [c] | None => [] end.
Proof. destruct a; simpl prim_of; cbv iota; unfold api_prog;
  try (unfold pqc_keypair, pqc_sign, pqc_verify; rewrite run_call_ret);
  reflexivity. Qed.

Lemma final_api_prog {env : Type} (h : handler env) (a : api_call)
    (w : world env) :
  final (run h (api_prog PKBYTES SKBYTES SIGBYTES a) w)
  = match prim_of a with Some c => (h c w).2 | None => w end.
Proof. destruct a; simpl prim_of; cbv iota; unfold api_prog;
  try (unfold pqc_keypair, pqc_sign, pqc_verify; rewrite run_call_ret);
  reflexivity. Qed.

Lemma result_api_prog {env : Type} (h : handler env) (a : api_call)
    (c : prim_call) (w : world env) :
  prim_of a = Some c ->
  result (run h (api_prog PKBYTES SKBYTES SIGBYTES a) w) = (h c w).1.
Proof. destruct a; simpl prim_of; intros Hc; inversion Hc; subst;
  unfold api_prog, pqc_keypair, pqc_sign, pqc_verify;
  rewrite run_call_ret; reflexivity. Qed.

Lemma prim_of_size_query (a : api_call) :
  is_size_query a = match prim_of a with Some _ => false | None => true end.
Proof. destruct a; reflexivity. Qed.

Lemma result_run_session {env : Type} (h : handler env) (cs : list api_call) :
  forall w : world env,
    result (run_session PKBYTES SKBYTES SIGBYTES h cs w)
    = run_process PKBYTES SKBYTES SIGBYTES h cs w.
Proof.
  induction cs as [| a cs IH]; intros w; simpl; [| rewrite IH]; reflexivity.
Qed.

(** X1: the PQClean calls of a session are those named by its calls of
    [pqc_keypair], [pqc_sign] and [pqc_verify], one for each, with the
    arguments as given and in the order of the session; the binding adds
    no call, drops none and reorders none, and the size functions
    contribute none.  This holds whatever the PQClean functions do and in
    whatever state the session starts. *)
Theorem session_calls {env : Type} (h : handler env) (cs : list api_call)
    (w : world env) :
  calls (run_session PKBYTES SKBYTES SIGBYTES h cs w) = omap prim_of cs.
Proof.
  revert w. induction cs as [| a cs IH]; intros w; [reflexivity |].
  simpl. rewrite calls_api_prog, IH.
  destruct (prim_of a); reflexivity.
Qed.

(** X2: a session through the binding is the same as calling the PQClean
    functions directly.  Running the PQClean calls named by the session,
    one after the other from the same state, returns the status values the
    session returned to its calls of [pqc_keypair], [pqc_sign] and
    [pqc_verify], and ends in the state the session ends in: the binding
    keeps no state of its own and changes no status. *)
Theorem session_runs_primitives {env : Type} (h : handler env)
    (cs : list api_call) (w : world env) :
  run_prims h (omap prim_of cs) w
  = (status_results cs (run_process PKBYTES SKBYTES SIGBYTES h cs w),
     final (run_session PKBYTES SKBYTES SIGBYTES h cs w)).
Proof.
  revert w. induction cs as [| a cs IH]; intros w; [reflexivity |].
  simpl. rewrite final_api_prog, prim_of_size_query.
  destruct (prim_of a) as [c |] eqn:Hc.
  - simpl. rewrite (result_api_prog h a c w Hc).
    destruct (h c w) as [r w1]. simpl. rewrite IH. reflexivity.
  - apply IH.
Qed.

(** X3: size queries are transparent.  Leaving the calls of
    [pqc_pk_bytes], [pqc_sk_bytes] and [pqc_sig_bytes] out of a session
    changes neither the state it ends in, nor the PQClean calls it makes,
    nor the status any other call returns. *)
Theorem size_queries_transparent {env : Type} (h : handler env)
    (cs : list api_call) (w : world env) :
  final (run_session PKBYTES SKBYTES SIGBYTES h (without_size_queries cs) w)
  = final (run_session PKBYTES SKBYTES SIGBYTES h cs w)
  /\ calls (run_session PKBYTES SKBYTES SIGBYTES h (without_size_queries cs) w)
     = calls (run_session PKBYTES SKBYTES SIGBYTES h cs w)
  /\ run_process PKBYTES SKBYTES SIGBYTES h (without_size_queries cs) w
     = status_results cs (run_process PKBYTES SKBYTES SIGBYTES h cs w).
Proof.
  revert w. unfold without_size_queries.
  induction cs as [| a cs IH]; intros w; [repeat split |].
  simpl List.filter. simpl run_process. simpl status_results.
  destruct (is_size_query a) eqn:Hq; simpl negb; cbv iota.
  - assert (Hw : final (run h (api_prog PKBYTES SKBYTES SIGBYTES a) w) = w).
    { rewrite final_api_prog. rewrite prim_of_size_query in Hq.
      destruct (prim_of a); [discriminate | reflexivity]. }
    assert (Hc : calls (run h (api_prog PKBYTES SKBYTES SIGBYTES a) w) = []).
    { rewrite calls_api_prog. rewrite prim_of_size_query in Hq.
      destruct (prim_of a); [discriminate | reflexivity]. }
    simpl run_session. rewrite Hw, Hc. simpl. apply IH.
  - simpl run_session. simpl run_process. simpl.
    destruct (IH (final (run h (api_prog PKBYTES SKBYTES SIGBYTES a) w)))
      as (-> & -> & ->).
    repeat split.
Qed.

(** X4: the binding keeps every invariant the PQClean functions keep.  If
    each PQClean call named by a session preserves a property of the
    state, then the property holds after the session whenever it held
    before: no function of the binding touches the state itself. *)
Theorem session_keeps_invariant {env : Type} (h : handler env)
    (I : world env -> Prop) (cs : list api_call) (w : world env) :
  (forall (c : prim_call) (w' : world env),
     c ∈ omap prim_of cs -> I w' -> I (h c w').2) ->
  I w ->
  I (final (run_session PKBYTES SKBYTES SIGBYTES h cs w)).
Proof.
  revert w. induction cs as [| a cs IH]; intros w Hstep Hw; [exact Hw |].
  simpl. apply IH.
  - intros c w' Hin. apply Hstep. simpl.
    destruct (prim_of a); [right |]; exact Hin.
  - rewrite final_api_prog. simpl in Hstep.
    destruct (prim_of a) as [c |]; [| exact Hw].
    apply Hstep; [left | exact Hw].
Qed.

(** X5: a session depends on the PQClean functions only through the calls
    it names.  Two behaviours of the PQClean functions that agree on every
    call named by the session give the session the same return values, the
    same final state and the same calls; so a session without
    [pqc_keypair] is unaffected by what key generation does, and likewise
    for signing and verification. *)
Theorem session_depends_on_named_calls {env : Type} (h h' : handler env)
    (cs : list api_call) (w : world env) :
  (forall (c : prim_call) (w' : world env),
     c ∈ omap prim_of cs -> h c w' = h' c w') ->
  run_session PKBYTES SKBYTES SIGBYTES h cs w
  = run_session PKBYTES SKBYTES SIGBYTES h' cs w.
Proof.
  revert w. induction cs as [| a cs IH]; intros w Hagree; [reflexivity |].
  assert (Ha : run h (api_prog PKBYTES SKBYTES SIGBYTES a) w
               = run h' (api_prog PKBYTES SKBYTES SIGBYTES a) w).
  { simpl in Hagree.
    destruct a; unfold api_prog, pqc_keypair, pqc_sign, pqc_verify;
      rewrite ?run_call_ret; try reflexivity;
      (rewrite Hagree; [reflexivity | left]). }
  simpl. rewrite Ha, IH; [reflexivity |].
  intros c w' Hin. apply Hagree. simpl.
  destruct (prim_of a); [right |]; exact Hin.
Qed.

End SessionProperties.

(** ** Sessions on concrete data *)

(** None of the calls of [Sample.session] is given the message block as
    an output buffer, and the stand-in functions write to their output
    blocks only; the message is intact after the session. *)
Lemma session_keeps_invariant_witness :
  SessionSample.message_intact Sample.w0
  /\ SessionSample.message_intact
       (final (run_session Sample.PKBYTES Sample.SKBYTES Sample.SIGBYTES
                 Sample.primitives Sample.session Sample.w0)).
Proof.
  assert (Hw0 : SessionSample.message_intact Sample.w0) by reflexivity.
  split; [exact Hw0 |].
  apply (session_keeps_invariant Sample.PKBYTES Sample.SKBYTES Sample.SIGBYTES
           Sample.primitives SessionSample.message_intact Sample.session
           Sample.w0); [| exact Hw0].
  intros c w' Hin Hw'. simpl in Hin.
  unfold SessionSample.message_intact in *.
  apply elem_of_cons in Hin as [-> | Hin];
    [| apply elem_of_cons in Hin as [-> | Hin];
       [| apply elem_of_cons in Hin as [-> | Hin];
          [| apply elem_of_nil in Hin; destruct Hin]]]; simpl.
  - rewrite !lookup_insert_ne by discriminate. exact Hw'.
  - rewrite lookup_insert_ne by discriminate. exact Hw'.
  - exact Hw'.
Defined.

(** [SessionSample.signing_session] has no call of [pqc_keypair]; it runs
    the same whether key generation works or fails. *)
Lemma session_depends_on_named_calls_witness :
  run_session Sample.PKBYTES Sample.SKBYTES Sample.SIGBYTES
    Sample.primitives SessionSample.signing_session Sample.w0
  = run_session Sample.PKBYTES Sample.SKBYTES Sample.SIGBYTES
      SessionSample.no_keygen SessionSample.signing_session Sample.w0.
Proof.
  apply (session_depends_on_named_calls Sample.PKBYTES Sample.SKBYTES
           Sample.SIGBYTES Sample.primitives SessionSample.no_keygen
           SessionSample.signing_session Sample.w0).
  intros c w' Hin. simpl in Hin.
  apply elem_of_cons in Hin as [-> | Hin];
    [| apply elem_of_cons in Hin as [-> | Hin];
       [| apply elem_of_nil in Hin; destruct Hin]]; reflexivity.
Defined.
